(** * DiskANN configuration (knowhere, src/index/diskann/diskann_config.h)

    A shallow embedding of [DiskANNConfig]: the declared fields, the table
    built by [KNOHWERE_DECLARE_CONFIG], and the two overridden checks
    [CheckAndAdjustForSearch] and [CheckAndAdjustForBuild]. *)

From Stdlib Require Import ZArith QArith Lia Ascii.
From stdpp Require Import base option strings pretty list.

Local Close Scope Q_scope.
Local Open Scope Z_scope.

(** ** Values

    [CFG_INT], [CFG_FLOAT], [CFG_BOOL] and [CFG_STRING] come from
    knowhere/config.h.  The class uses them through [has_value()],
    [value()] and assignment, the interface of [std::optional]; they are
    embedded as [option].  Integer values are compared, passed to
    [std::max] and printed, never added or multiplied, so [Z] carries them
    without a wrap-around.  Float values are only compared against
    declared bounds; they are carried by the rational they denote. *)

Definition CFG_INT := option Z.
Definition CFG_FLOAT := option Q.
Definition CFG_BOOL := option bool.
Definition CFG_STRING := option string.

(** The two values of [Status] the class returns. *)
Inductive Status := success | out_of_range_in_json.

Global Instance Status_eq_dec : EqDecision Status.
Proof. solve_decision. Defined.

(** [optional::value()] on an empty optional throws
    [std::bad_optional_access]; a call either returns or throws. *)
Inductive Result (A : Type) :=
  | Ret (a : A)
  | Throw_bad_optional_access.
Arguments Ret {A} a.
Arguments Throw_bad_optional_access {A}.

Definition bind {A B} (m : Result A) (f : A → Result B) : Result B :=
  match m with
  | Ret a => f a
  | Throw_bad_optional_access => Throw_bad_optional_access
  end.

Notation "x ←! m ;; k" := (bind m (λ x, k))
  (at level 100, m at next level, right associativity, only parsing).

Definition has_value {A} (o : option A) : bool :=
  match o with Some _ => true | None => false end.

Definition value {A} (o : option A) : Result A :=
  match o with Some v => Ret v | None => Throw_bad_optional_access end.

(** [std::to_string] on an integer: decimal digits, a leading minus sign
    for negatives. *)
Definition to_string (z : Z) : string := pretty z.

(** ** The class *)

Definition kSearchListSizeMinValue : Z := 16.
Definition kDefaultSearchListSizeForBuild : Z := 128.

(** The data members of [DiskANNConfig], in declaration order, after the
    two members of [BaseConfig] that this header touches ([metric_type] in
    the declaration table, [k] in the search check). *)
Record DiskANNConfig := {
  metric_type : CFG_STRING;
  k : CFG_INT;
  max_degree : CFG_INT;
  search_list_size : CFG_INT;
  pq_code_budget_gb : CFG_FLOAT;
  build_dram_budget_gb : CFG_FLOAT;
  disk_pq_dims : CFG_INT;
  accelerate_build : CFG_BOOL;
  search_cache_budget_gb : CFG_FLOAT;
  warm_up : CFG_BOOL;
  use_bfs_cache : CFG_BOOL;
  beamwidth : CFG_INT;
  min_k : CFG_INT;
  max_k : CFG_INT;
  search_list_and_k_ratio : CFG_FLOAT;
  filter_threshold : CFG_FLOAT;
}.

(** Assignment to the member [search_list_size]. *)
Definition set_search_list_size (v : CFG_INT) (c : DiskANNConfig) : DiskANNConfig :=
  {| metric_type := metric_type c;
     k := k c;
     max_degree := max_degree c;
     search_list_size := v;
     pq_code_budget_gb := pq_code_budget_gb c;
     build_dram_budget_gb := build_dram_budget_gb c;
     disk_pq_dims := disk_pq_dims c;
     accelerate_build := accelerate_build c;
     search_cache_budget_gb := search_cache_budget_gb c;
     warm_up := warm_up c;
     use_bfs_cache := use_bfs_cache c;
     beamwidth := beamwidth c;
     min_k := min_k c;
     max_k := max_k c;
     search_list_and_k_ratio := search_list_and_k_ratio c;
     filter_threshold := filter_threshold c |}.

(** What a member function can reach: the object itself, the string behind
    the caller's [err_msg] pointer (the code dereferences it unchecked; it
    is taken to point to a string), and the lines streamed to
    [LOG_KNOWHERE_ERROR_]. *)
Record Store := {
  self : DiskANNConfig;
  err_msg : string;
  error_log : list string;
}.

Definition with_self (c : DiskANNConfig) (s : Store) : Store :=
  {| self := c; err_msg := err_msg s; error_log := error_log s |}.

Definition write_err_msg (m : string) (s : Store) : Store :=
  {| self := self s; err_msg := m; error_log := error_log s |}.

Definition LOG_KNOWHERE_ERROR_ (m : string) (s : Store) : Store :=
  {| self := self s; err_msg := err_msg s; error_log := error_log s ++ [m] |}.

Definition search_error_text (sls kv : Z) : string :=
  "search_list_size(" +:+ to_string sls +:+ ") should be larger than k(" +:+
  to_string kv +:+ ")".

(** [Status CheckAndAdjustForSearch(std::string* err_msg)] *)
Definition CheckAndAdjustForSearch (s : Store) : Result (Status * Store) :=
  if negb (has_value (search_list_size (self s))) then
    kv ←! value (k (self s)) ;;
    Ret (success,
         with_self (set_search_list_size
                      (Some (Z.max kv kSearchListSizeMinValue)) (self s)) s)
  else
    kv ←! value (k (self s)) ;;
    sls ←! value (search_list_size (self s)) ;;
    if kv >? sls then
      let s1 := write_err_msg (search_error_text sls kv) s in
      let s2 := LOG_KNOWHERE_ERROR_ (err_msg s1) s1 in
      Ret (out_of_range_in_json, s2)
    else
      Ret (success, s).

(** [Status CheckAndAdjustForBuild()] *)
Definition CheckAndAdjustForBuild (c : DiskANNConfig) : Status * DiskANNConfig :=
  if negb (has_value (search_list_size c)) then
    (success, set_search_list_size (Some kDefaultSearchListSizeForBuild) c)
  else
    (success, c).

(** ** Concrete objects used in the examples *)

(** A configuration with no field supplied. *)
Definition unset_config : DiskANNConfig :=
  {| metric_type := None; k := None; max_degree := None;
     search_list_size := None; pq_code_budget_gb := None;
     build_dram_budget_gb := None; disk_pq_dims := None;
     accelerate_build := None; search_cache_budget_gb := None;
     warm_up := None; use_bfs_cache := None; beamwidth := None;
     min_k := None; max_k := None; search_list_and_k_ratio := None;
     filter_threshold := None |}.

Definition set_k (v : CFG_INT) (c : DiskANNConfig) : DiskANNConfig :=
  {| metric_type := metric_type c;
     k := v;
     max_degree := max_degree c;
     search_list_size := search_list_size c;
     pq_code_budget_gb := pq_code_budget_gb c;
     build_dram_budget_gb := build_dram_budget_gb c;
     disk_pq_dims := disk_pq_dims c;
     accelerate_build := accelerate_build c;
     search_cache_budget_gb := search_cache_budget_gb c;
     warm_up := warm_up c;
     use_bfs_cache := use_bfs_cache c;
     beamwidth := beamwidth c;
     min_k := min_k c;
     max_k := max_k c;
     search_list_and_k_ratio := search_list_and_k_ratio c;
     filter_threshold := filter_threshold c |}.

Definition set_filter_threshold (v : CFG_FLOAT) (c : DiskANNConfig) : DiskANNConfig :=
  {| metric_type := metric_type c;
     k := k c;
     max_degree := max_degree c;
     search_list_size := search_list_size c;
     pq_code_budget_gb := pq_code_budget_gb c;
     build_dram_budget_gb := build_dram_budget_gb c;
     disk_pq_dims := disk_pq_dims c;
     accelerate_build := accelerate_build c;
     search_cache_budget_gb := search_cache_budget_gb c;
     warm_up := warm_up c;
     use_bfs_cache := use_bfs_cache c;
     beamwidth := beamwidth c;
     min_k := min_k c;
     max_k := max_k c;
     search_list_and_k_ratio := search_list_and_k_ratio c;
     filter_threshold := v |}.

(** A search request: [k] and, possibly, [search_list_size]. *)
Definition search_request (kv : Z) (sls : CFG_INT) : DiskANNConfig :=
  set_search_list_size sls (set_k (Some kv) unset_config).

(** The store at the call: the object, an empty caller string, an empty log. *)
Definition at_call (c : DiskANNConfig) : Store :=
  {| self := c; err_msg := ""; error_log := [] |}.

(** [sub] occurs in [s]. *)
Definition mentions (sub s : string) : Prop :=
  ∃ pre post, s = pre +:+ sub +:+ post.

(** The character [c] does not occur in [s]. *)
Fixpoint free_of (c : Ascii.ascii) (s : string) : Prop :=
  match s with
  | EmptyString => True
  | String c' s' => c' ≠ c ∧ free_of c s'
  end.

(** ** The declaration table

    [KNOHWERE_DECLARE_CONFIG(DiskANNConfig)] registers one entry per field
    through a chain of setters.  The macros and the entry class are in
    knowhere/config.h; what is embedded here is what the header writes:
    which setters are called on which field, with which arguments. *)

Inductive ParamUsage := TRAIN | SEARCH | RANGE_SEARCH | DESERIALIZE.

Global Instance ParamUsage_eq_dec : EqDecision ParamUsage.
Proof. solve_decision. Defined.

(** The upper end of a declared range: a literal, or
    [std::numeric_limits<T>::max()], which no value of the type exceeds. *)
Inductive UpperBound (T : Type) :=
  | upto (hi : T)
  | numeric_limits_max.
Arguments upto {T} hi.
Arguments numeric_limits_max {T}.

Record Entry (T : Type) := {
  entry_description : option string;
  entry_default : option T;
  entry_range : option (T * UpperBound T);
  entry_allow_empty : bool;
  entry_usage : list ParamUsage;
}.
Arguments entry_description {T} _.
Arguments entry_default {T} _.
Arguments entry_range {T} _.
Arguments entry_allow_empty {T} _.
Arguments entry_usage {T} _.

Definition KNOWHERE_CONFIG_DECLARE_FIELD {T} : Entry T :=
  {| entry_description := None; entry_default := None; entry_range := None;
     entry_allow_empty := false; entry_usage := [] |}.

Definition description {T} (d : string) (e : Entry T) : Entry T :=
  {| entry_description := Some d; entry_default := entry_default e;
     entry_range := entry_range e; entry_allow_empty := entry_allow_empty e;
     entry_usage := entry_usage e |}.

Definition set_default {T} (v : T) (e : Entry T) : Entry T :=
  {| entry_description := entry_description e; entry_default := Some v;
     entry_range := entry_range e; entry_allow_empty := entry_allow_empty e;
     entry_usage := entry_usage e |}.

Definition set_range {T} (lo : T) (hi : UpperBound T) (e : Entry T) : Entry T :=
  {| entry_description := entry_description e; entry_default := entry_default e;
     entry_range := Some (lo, hi); entry_allow_empty := entry_allow_empty e;
     entry_usage := entry_usage e |}.

Definition allow_empty_without_default {T} (e : Entry T) : Entry T :=
  {| entry_description := entry_description e; entry_default := entry_default e;
     entry_range := entry_range e; entry_allow_empty := true;
     entry_usage := entry_usage e |}.

Definition for_usage {T} (u : list ParamUsage) (e : Entry T) : Entry T :=
  {| entry_description := entry_description e; entry_default := entry_default e;
     entry_range := entry_range e; entry_allow_empty := entry_allow_empty e;
     entry_usage := entry_usage e ++ u |}.

Definition for_train {T} : Entry T → Entry T := for_usage [TRAIN].
Definition for_search {T} : Entry T → Entry T := for_usage [SEARCH].
Definition for_range_search {T} : Entry T → Entry T := for_usage [RANGE_SEARCH].
Definition for_deserialize {T} : Entry T → Entry T := for_usage [DESERIALIZE].
Definition for_train_and_search {T} : Entry T → Entry T := for_usage [TRAIN; SEARCH].

(** Method chaining, [e.f().g()]. *)
Notation "e '.>' f" := (f e) (at level 50, left associativity, only parsing).

Module Declared.

Definition metric_type : Entry string :=
  KNOWHERE_CONFIG_DECLARE_FIELD
    .> set_default "L2"
    .> description "metric type"
    .> for_train_and_search
    .> for_deserialize.

Definition max_degree : Entry Z :=
  KNOWHERE_CONFIG_DECLARE_FIELD
    .> description "the degree of the graph index."
    .> set_default 48
    .> set_range 1 (upto 2048)
    .> for_train.

Definition search_list_size : Entry Z :=
  KNOWHERE_CONFIG_DECLARE_FIELD
    .> description "the size of search list during the index build or search."
    .> allow_empty_without_default
    .> set_range 1 numeric_limits_max
    .> for_train
    .> for_search.

Definition pq_code_budget_gb : Entry Q :=
  KNOWHERE_CONFIG_DECLARE_FIELD
    .> description "the size of PQ compressed representation in GB."
    .> set_range 0%Q numeric_limits_max
    .> for_train.

Definition build_dram_budget_gb : Entry Q :=
  KNOWHERE_CONFIG_DECLARE_FIELD
    .> description "limit on the memory allowed for building the index in GB."
    .> set_range 0%Q numeric_limits_max
    .> for_train.

Definition disk_pq_dims : Entry Z :=
  KNOWHERE_CONFIG_DECLARE_FIELD
    .> description "the dimension of compressed vectors stored on the ssd, use 0 to store uncompressed data."
    .> set_default 0
    .> for_train.

Definition accelerate_build : Entry bool :=
  KNOWHERE_CONFIG_DECLARE_FIELD
    .> description "a flag to enbale fast build."
    .> set_default false
    .> for_train.

Definition search_cache_budget_gb : Entry Q :=
  KNOWHERE_CONFIG_DECLARE_FIELD
    .> description "the size of cached nodes in GB."
    .> set_default 0%Q
    .> set_range 0%Q numeric_limits_max
    .> for_train
    .> for_deserialize.

Definition warm_up : Entry bool :=
  KNOWHERE_CONFIG_DECLARE_FIELD
    .> description "should do warm up before search."
    .> set_default false
    .> for_deserialize.

Definition use_bfs_cache : Entry bool :=
  KNOWHERE_CONFIG_DECLARE_FIELD
    .> description "should bfs strategy to cache nodes."
    .> set_default false
    .> for_deserialize.

Definition beamwidth : Entry Z :=
  KNOWHERE_CONFIG_DECLARE_FIELD
    .> description "the maximum number of IO requests each query will issue per iteration of search code."
    .> set_default 8
    .> set_range 1 (upto 128)
    .> for_search
    .> for_range_search.

Definition min_k : Entry Z :=
  KNOWHERE_CONFIG_DECLARE_FIELD
    .> description "the min l_search size used in range search."
    .> set_default 100
    .> set_range 1 numeric_limits_max
    .> for_range_search.

Definition max_k : Entry Z :=
  KNOWHERE_CONFIG_DECLARE_FIELD
    .> description "the max l_search size used in range search."
    .> set_default 10000
    .> set_range 1 numeric_limits_max
    .> for_range_search.

Definition search_list_and_k_ratio : Entry Q :=
  KNOWHERE_CONFIG_DECLARE_FIELD
    .> description "the ratio of search list size and k."
    .> set_default 2.0%Q
    .> set_range 1.0%Q (upto 5.0%Q)
    .> for_range_search.

Definition filter_threshold : Entry Q :=
  KNOWHERE_CONFIG_DECLARE_FIELD
    .> description "the threshold of filter ratio to use PQ + Refine."
    .> set_default (-1.0)%Q
    .> set_range (-1.0)%Q (upto 1.0%Q)
    .> for_search.

End Declared.

(** ** Loading a field *)

(** A value lies in the declared range, both ends included; a field
    declared without a range accepts every value. *)
Definition in_declared_range {T} (leb : T → T → bool) (e : Entry T) (v : T) : bool :=
  match entry_range e with
  | None => true
  | Some (lo, upto hi) => leb lo v && leb v hi
  | Some (lo, numeric_limits_max) => leb lo v
  end.

(** Modelled from the spec: the loader that applies the declaration table
    (knowhere/config.h) is not among the sources.  Section 6 says of the
    configuration contract that each field is "range/default-checked
    before being passed to Build or Search", and section 7 that an
    out-of-range parameter is a ConfigError "rejected before any work
    starts".  A supplied value is accepted when it lies in the declared
    range and rejected otherwise; a field that is not supplied takes its
    declared default, and stays empty when none is declared. *)
Definition load_field {T} (leb : T → T → bool) (e : Entry T)
    (supplied : option T) : Status * option T :=
  match supplied with
  | Some v =>
      if in_declared_range leb e v then (success, Some v)
      else (out_of_range_in_json, None)
  | None => (success, entry_default e)
  end.

(** Modelled from the spec: the search engine is not among the sources.
    Section 4.5 switches to PQ-then-refine on "[filter_threshold] (or,
    when [filter_threshold<0], a dynamically computed threshold depending
    on [k])"; the header's comment on the field says the same ("negative
    vlaues will use dynamic threshold calculator given topk"). *)
Definition uses_dynamic_threshold (ft : Q) : bool :=
  negb (Qle_bool 0%Q ft).

(** ** Range search *)

(** Modelled from the spec: the range-search controller is not among the
    sources.  Section 4.6: "start at [k = minK], call BeamSearchEngine
    with [searchListSize = k × ratio]; if the farthest returned distance
    is still within [radius] ..., double [k] and retry; stop doubling once
    the farthest distance exceeds [radius] ... or once [k] would exceed
    [maxK], whichever comes first."  The engine is a parameter: it maps
    [k] and the search-list size to results ordered by distance. *)
Section RangeSearchController.

Variable BeamSearch : Z → Q → list (nat * Q).

Record Round := {
  round_k : Z;
  round_searchListSize : Q;
  round_results : list (nat * Q);
}.

Definition farthest_within (radius : Q) (results : list (nat * Q)) : bool :=
  match last results with
  | Some (_, d) => Qle_bool d radius
  | None => false
  end.

Fixpoint doubling_rounds (fuel : nat) (radius : Q) (maxK : Z) (ratio : Q)
    (k : Z) : option (list Round) :=
  match fuel with
  | O => None
  | S fuel' =>
      let searchListSize := (inject_Z k * ratio)%Q in
      let results := BeamSearch k searchListSize in
      let r := {| round_k := k; round_searchListSize := searchListSize;
                  round_results := results |} in
      if farthest_within radius results && (2 * k <=? maxK)
      then cons r <$> doubling_rounds fuel' radius maxK ratio (2 * k)
      else Some [r]
  end.

(** The rounds of one range search, first round first.  [k] at least
    doubles per round and stays below [maxK] after the first, so
    [log2 maxK + 1] rounds of fuel are never used up when [minK ≥ 1]. *)
Definition RangeSearch_rounds (radius : Q) (minK maxK : Z) (ratio : Q)
    : option (list Round) :=
  doubling_rounds (S (Z.to_nat (Z.log2 maxK))) radius maxK ratio minK.

End RangeSearchController.

(** [n ≤ log2(maxK/minK) + 1] over the reals, for [n ≥ 1] rounds and
    [minK > 0]: the same as [2^(n-1) ≤ maxK/minK]. *)
Definition within_log2_rounds (minK maxK : Z) (n : nat) : Prop :=
  minK * 2 ^ (Z.of_nat n - 1) ≤ maxK.

(** ** An engine for the examples *)

(** An engine that finds [k] results at distances 1, 2, ..., [k]. *)
Definition ramp_engine (k : Z) (searchListSize : Q) : list (nat * Q) :=
  (λ i, (i, inject_Z (Z.of_nat (S i)))) <$> seq 0 (Z.to_nat k).

(** ** The two checks in sequence *)

(** The object goes through the build check, then through the search
    check, in the same store. *)
Definition build_then_search (s : Store) : Result (Status * Store) :=
  CheckAndAdjustForSearch (with_self (snd (CheckAndAdjustForBuild (self s))) s).

(** The object goes through the search check and, when that returns,
    through the build check. *)
Definition search_then_build (s : Store) : Result (Status * Store) :=
  r ←! CheckAndAdjustForSearch s ;;
  Ret (fst r, with_self (snd (CheckAndAdjustForBuild (self (snd r)))) (snd r)).

(** The declared default of an entry lies in its declared range; an entry
    without a default has nothing to check. *)
Definition default_in_range {T} (leb : T → T → bool) (e : Entry T) : bool :=
  match entry_default e with
  | Some d => in_declared_range leb e d
  | None => true
  end.

(** * Properties of the two checks *)

Local Ltac run_check :=
  unfold CheckAndAdjustForSearch, CheckAndAdjustForBuild, bind, value, has_value;
  simpl.

(** The search check returns normally whenever [k] holds a value. *)
Lemma search_check_returns (s : Store) (kv : Z) :
  k (self s) = Some kv →
  ∃ st s', CheckAndAdjustForSearch s = Ret (st, s').
Proof.
  intros Hk. run_check. rewrite Hk.
  destruct (search_list_size (self s)) as [sls|]; simpl; [|eauto].
  destruct (kv >? sls); eauto.
Qed.

(** Without a value in [k] both branches reach [k.value()] and throw; the
    object is not assigned before that. *)
Lemma search_check_throws_without_k (s : Store) :
  k (self s) = None → CheckAndAdjustForSearch s = Throw_bad_optional_access.
Proof.
  intros Hk. run_check. rewrite Hk.
  by destruct (search_list_size (self s)).
Qed.

(** Case analysis of a rejection: the branch that produced it. *)
Lemma search_rejection_inv (s s' : Store) :
  CheckAndAdjustForSearch s = Ret (out_of_range_in_json, s') →
  ∃ sls kv,
    search_list_size (self s) = Some sls ∧ k (self s) = Some kv ∧ sls < kv ∧
    s' = LOG_KNOWHERE_ERROR_ (search_error_text sls kv)
           (write_err_msg (search_error_text sls kv) s).
Proof.
  run_check.
  destruct (search_list_size (self s)) as [sls|] eqn:Hs;
    destruct (k (self s)) as [kv|] eqn:Hk; simpl; try discriminate.
  destruct (kv >? sls) eqn:Hgt; intros [= <-].
  exists sls, kv. repeat split; [lia].
Qed.

(** C1: with [search_list_size] set below [k] the search check returns
    [out_of_range_in_json]; with [search_list_size] unset, equal to [k] or
    above [k] it returns [success]. *)
Theorem search_check_status (s : Store) (kv : Z) (Hk : k (self s) = Some kv) :
  (∀ sls, search_list_size (self s) = Some sls → sls < kv →
     ∃ s', CheckAndAdjustForSearch s = Ret (out_of_range_in_json, s')) ∧
  (search_list_size (self s) = None ∨
   (∃ sls, search_list_size (self s) = Some sls ∧ (sls = kv ∨ kv < sls)) →
     ∃ s', CheckAndAdjustForSearch s = Ret (success, s')).
Proof.
  split.
  - intros sls Hs Hlt. run_check. rewrite Hs, Hk. simpl.
    destruct (Z.gtb_spec kv sls); [eauto | lia].
  - intros [Hs | (sls & Hs & Hge)]; run_check; rewrite Hs, Hk; simpl; [eauto|].
    destruct (Z.gtb_spec kv sls); [lia | eauto].
Qed.

Lemma search_check_status_witness :
  (∃ s', CheckAndAdjustForSearch (at_call (search_request 10 (Some 3)))
         = Ret (out_of_range_in_json, s')) ∧
  (∃ s', CheckAndAdjustForSearch (at_call (search_request 10 None))
         = Ret (success, s')) ∧
  (∃ s', CheckAndAdjustForSearch (at_call (search_request 10 (Some 10)))
         = Ret (success, s')) ∧
  (∃ s', CheckAndAdjustForSearch (at_call (search_request 10 (Some 11)))
         = Ret (success, s')).
Proof.
  repeat split.
  - apply (proj1 (search_check_status
                    (at_call (search_request 10 (Some 3))) 10 eq_refl) 3);
      [reflexivity | lia].
  - apply (proj2 (search_check_status
                    (at_call (search_request 10 None)) 10 eq_refl)).
    left. reflexivity.
  - apply (proj2 (search_check_status
                    (at_call (search_request 10 (Some 10))) 10 eq_refl)).
    right. exists 10. split; [reflexivity | left; reflexivity].
  - apply (proj2 (search_check_status
                    (at_call (search_request 10 (Some 11))) 10 eq_refl)).
    right. exists 11. split; [reflexivity | right; lia].
Defined.

(** C2: with [search_list_size] unset the search check returns [success]
    and leaves [search_list_size = max(k, 16)]; for [k = 5] that is 16. *)
Theorem search_default_is_max_k_16 (s : Store) (kv : Z)
    (Hk : k (self s) = Some kv) (Hs : search_list_size (self s) = None) :
  ∃ s', CheckAndAdjustForSearch s = Ret (success, s') ∧
        search_list_size (self s') = Some (Z.max kv 16) ∧
        (kv = 5 → search_list_size (self s') = Some 16).
Proof.
  run_check. rewrite Hs, Hk. simpl. eexists. split; [reflexivity|].
  simpl. split; [reflexivity|]. intros ->. reflexivity.
Qed.

Lemma search_default_is_max_k_16_witness :
  ∃ s', CheckAndAdjustForSearch (at_call (search_request 5 None))
        = Ret (success, s') ∧
        search_list_size (self s') = Some (Z.max 5 16) ∧
        (5 = 5 → search_list_size (self s') = Some 16).
Proof.
  apply (search_default_is_max_k_16 (at_call (search_request 5 None)) 5);
    reflexivity.
Defined.

(** C3, as the spec states it, fails: a search with [k = 10] and
    [search_list_size] unset does not get 128. *)
Lemma search_default_k10_is_not_128 :
  ¬ ∃ st s', CheckAndAdjustForSearch (at_call (search_request 10 None))
             = Ret (st, s') ∧
             search_list_size (self s') = Some 128.
Proof.
  intros (st & s' & Hrun & H128). vm_compute in Hrun.
  injection Hrun as _ <-. discriminate H128.
Qed.

(** C3, amended: a search with [k = 10] and [search_list_size] unset gets
    [search_list_size = max(10, 16) = 16]. *)
Theorem search_default_k10_is_16 (s : Store)
    (Hk : k (self s) = Some 10) (Hs : search_list_size (self s) = None) :
  ∃ s', CheckAndAdjustForSearch s = Ret (success, s') ∧
        search_list_size (self s') = Some 16.
Proof.
  run_check. rewrite Hs, Hk. simpl. eexists. split; reflexivity.
Qed.

Lemma search_default_k10_is_16_witness :
  ∃ s', CheckAndAdjustForSearch (at_call (search_request 10 None))
        = Ret (success, s') ∧
        search_list_size (self s') = Some 16.
Proof.
  apply (search_default_k10_is_16 (at_call (search_request 10 None)));
    reflexivity.
Defined.

(** Where the 128 of a search can come from: an object that went through
    the build check keeps its 128 in a later search check, as long as [k]
    does not exceed it. *)
Lemma search_after_build_keeps_128 (c : DiskANNConfig) (kv : Z) (s : Store) :
  search_list_size c = None → k c = Some kv → kv ≤ 128 →
  self s = snd (CheckAndAdjustForBuild c) →
  CheckAndAdjustForSearch s = Ret (success, s) ∧
  search_list_size (self s) = Some 128.
Proof.
  intros Hs Hk Hle Hself. run_check. rewrite Hself.
  unfold CheckAndAdjustForBuild, has_value. rewrite Hs. simpl. rewrite Hk. simpl.
  destruct (Z.gtb_spec kv kDefaultSearchListSizeForBuild) as [Hgt|_]; [|done].
  unfold kDefaultSearchListSizeForBuild in Hgt. lia.
Qed.

(** C4: the build check sets an unset [search_list_size] to 128 and
    returns [success]; a [search_list_size] that is set stays as it is. *)
Theorem build_default_is_128 (c : DiskANNConfig) :
  (search_list_size c = None →
     fst (CheckAndAdjustForBuild c) = success ∧
     search_list_size (snd (CheckAndAdjustForBuild c)) = Some 128) ∧
  (∀ v, search_list_size c = Some v →
     search_list_size (snd (CheckAndAdjustForBuild c)) = Some v ∧
     snd (CheckAndAdjustForBuild c) = c).
Proof.
  split.
  - intros Hs. run_check. rewrite Hs. simpl. split; reflexivity.
  - intros v Hs. run_check. rewrite Hs. simpl. split; [exact Hs | reflexivity].
Qed.

Lemma build_default_is_128_witness :
  (fst (CheckAndAdjustForBuild unset_config) = success ∧
   search_list_size (snd (CheckAndAdjustForBuild unset_config)) = Some 128) ∧
  (search_list_size
     (snd (CheckAndAdjustForBuild (search_request 10 (Some 3)))) = Some 3 ∧
   snd (CheckAndAdjustForBuild (search_request 10 (Some 3)))
   = search_request 10 (Some 3)).
Proof.
  split.
  - apply (proj1 (build_default_is_128 unset_config)). reflexivity.
  - apply (proj2 (build_default_is_128 (search_request 10 (Some 3))) 3).
    reflexivity.
Defined.

(** ** The text of the rejection *)

Lemma string_app_assoc (a b c : string) : (a +:+ b) +:+ c = a +:+ b +:+ c.
Proof.
  induction a as [|x a IH]; [reflexivity|].
  change (String x ((a +:+ b) +:+ c) = String x (a +:+ b +:+ c)).
  by rewrite IH.
Qed.

Lemma pretty_N_char_not_paren (d : N) : pretty_N_char d ≠ ")"%char.
Proof. unfold pretty_N_char. repeat case_match; discriminate. Qed.

Lemma pretty_N_go_free (x : N) (s : string) :
  free_of ")" s → free_of ")" (pretty_N_go x s).
Proof.
  revert s. induction (N.lt_wf_0 x) as [x _ IH]. intros s Hs.
  destruct (decide (x = 0)%N) as [->|Hx].
  - by rewrite pretty_N_go_0.
  - rewrite pretty_N_go_step by lia. apply IH.
    + apply N.div_lt; lia.
    + split; [apply pretty_N_char_not_paren | done].
Qed.

Lemma pretty_N_free (x : N) : free_of ")" (pretty x).
Proof.
  unfold pretty, pretty_N. case_decide.
  - simpl. split; [discriminate | done].
  - by apply pretty_N_go_free.
Qed.

(** A printed integer holds no closing parenthesis. *)
Lemma to_string_free (z : Z) : free_of ")" (to_string z).
Proof.
  unfold to_string, pretty, pretty_Z. destruct z as [|p|p].
  - simpl. split; [discriminate | done].
  - apply pretty_N_free.
  - simpl. split; [discriminate | apply pretty_N_free].
Qed.

(** Two texts that agree, each cut at its first closing parenthesis,
    agree on both sides of the cut. *)
Lemma split_at_paren (a a' r r' : string) :
  free_of ")" a → free_of ")" a' →
  a +:+ String ")" r = a' +:+ String ")" r' → a = a' ∧ r = r'.
Proof.
  revert a'. induction a as [|x a IH]; intros [|x' a'] Ha Ha';
    unfold String.append; fold String.append.
  - intros [= ->]. done.
  - intros [= <- _]. by destruct Ha' as [? _].
  - intros [= -> _]. by destruct Ha as [? _].
  - intros [= -> Heq]. destruct Ha as [_ Ha], Ha' as [_ Ha'].
    destruct (IH a' Ha Ha' Heq) as [-> ->]. done.
Qed.

(** The text of a rejection determines the two values it prints. *)
Lemma search_error_text_inj (sls kv sls' kv' : Z) :
  search_error_text sls kv = search_error_text sls' kv' →
  sls = sls' ∧ kv = kv'.
Proof.
  unfold search_error_text. intros H.
  apply (inj (String.app "search_list_size(")) in H.
  simpl in H.
  apply split_at_paren in H as [H1 H2]; [|apply to_string_free..].
  apply (inj (String.app " should be larger than k(")) in H2.
  apply split_at_paren in H2 as [H2 _]; [|apply to_string_free..].
  split; [exact (inj pretty _ _ H1) | exact (inj pretty _ _ H2)].
Qed.

Lemma search_error_text_mentions (sls kv : Z) :
  mentions "search_list_size" (search_error_text sls kv) ∧
  mentions (to_string sls) (search_error_text sls kv) ∧
  mentions (to_string kv) (search_error_text sls kv).
Proof.
  unfold mentions, search_error_text. repeat split.
  - exists "", ("(" +:+ to_string sls +:+ ") should be larger than k(" +:+
                to_string kv +:+ ")").
    reflexivity.
  - exists "search_list_size(",
           (") should be larger than k(" +:+ to_string kv +:+ ")").
    reflexivity.
  - exists ("search_list_size(" +:+ to_string sls +:+
            ") should be larger than k("), ")".
    by rewrite !string_app_assoc.
Qed.

(** C5: a rejection by the search check leaves in [err_msg] a text that
    names the field [search_list_size], prints the supplied
    [search_list_size] and the supplied [k], and determines both; the
    status is not [success] and the text is also sent to the error log. *)
Theorem search_rejection_text (s s' : Store) (st : Status)
    (Hrun : CheckAndAdjustForSearch s = Ret (st, s')) (Hrej : st ≠ success) :
  st = out_of_range_in_json ∧
  ∃ sls kv,
    search_list_size (self s) = Some sls ∧ k (self s) = Some kv ∧
    err_msg s' = "search_list_size(" +:+ to_string sls +:+
                 ") should be larger than k(" +:+ to_string kv +:+ ")" ∧
    mentions "search_list_size" (err_msg s') ∧
    mentions (to_string sls) (err_msg s') ∧
    mentions (to_string kv) (err_msg s') ∧
    (∀ a b, err_msg s' = search_error_text a b → a = sls ∧ b = kv) ∧
    error_log s' = error_log s ++ [err_msg s'].
Proof.
  destruct st; [done|]. split; [done|].
  apply search_rejection_inv in Hrun as (sls & kv & Hs & Hk & _ & ->).
  exists sls, kv. simpl.
  destruct (search_error_text_mentions sls kv) as (M1 & M2 & M3).
  split_and!; try done.
  intros a b Heq. symmetry in Heq.
  by apply search_error_text_inj in Heq as [-> ->].
Qed.

Lemma search_rejection_text_witness :
  ∃ s', CheckAndAdjustForSearch (at_call (search_request 10 (Some 3)))
        = Ret (out_of_range_in_json, s') ∧
        err_msg s' = "search_list_size(3) should be larger than k(10)" ∧
        error_log s' = ["search_list_size(3) should be larger than k(10)"].
Proof.
  eexists. split; [reflexivity|].
  destruct (search_rejection_text
              (at_call (search_request 10 (Some 3))) _ out_of_range_in_json
              eq_refl ltac:(discriminate))
    as (_ & sls & kv & Hs & Hk & Hmsg & _ & _ & _ & _ & Hlog).
  injection Hs as <-. injection Hk as <-.
  split; [exact Hmsg | exact Hlog].
Defined.

(** C8: a rejection by the search check leaves the configuration object
    as it was, [search_list_size] included; the store differs from the one
    at the call in the caller's [err_msg], and in the log line that
    repeats it. *)
Theorem search_rejection_keeps_config (s s' : Store)
    (Hrun : CheckAndAdjustForSearch s = Ret (out_of_range_in_json, s')) :
  self s' = self s ∧
  search_list_size (self s') = search_list_size (self s) ∧
  s' = LOG_KNOWHERE_ERROR_ (err_msg s') (write_err_msg (err_msg s') s).
Proof.
  apply search_rejection_inv in Hrun as (sls & kv & _ & _ & _ & ->).
  simpl. repeat split.
Qed.

Lemma search_rejection_keeps_config_witness :
  ∃ s', CheckAndAdjustForSearch (at_call (search_request 10 (Some 3)))
        = Ret (out_of_range_in_json, s') ∧
        self s' = search_request 10 (Some 3) ∧
        search_list_size (self s') = Some 3.
Proof.
  eexists. split; [reflexivity|].
  destruct (search_rejection_keeps_config
              (at_call (search_request 10 (Some 3))) _ eq_refl) as (H1 & H2 & _).
  split; [exact H1 | exact H2].
Defined.

(** C9: the build check returns [success] on every configuration; it
    touches no field but [search_list_size], which keeps its value when
    set and becomes 128 when unset. *)
Theorem build_check_never_fails (c : DiskANNConfig) :
  fst (CheckAndAdjustForBuild c) = success ∧
  snd (CheckAndAdjustForBuild c)
  = set_search_list_size (Some (default 128 (search_list_size c))) c.
Proof.
  unfold CheckAndAdjustForBuild, has_value.
  destruct c as [mt kk md [v|] ? ? ? ? ? ? ? ? ? ? ? ?]; simpl; done.
Qed.

(** * Declared ranges and defaults *)

(** [filter_threshold] is accepted exactly on the closed interval from
    -1 to 1. *)
Lemma filter_threshold_accepted (v : Q) :
  load_field Qle_bool Declared.filter_threshold (Some v) = (success, Some v) ↔
  (-1 <= v <= 1)%Q.
Proof.
  unfold load_field, in_declared_range. simpl.
  assert (Qle_bool (-1.0) v = Qle_bool (-1) v) as -> by (by apply Qleb_comp).
  assert (Qle_bool v 1.0 = Qle_bool v 1) as -> by (by apply Qleb_comp).
  rewrite <- !Qle_bool_iff.
  destruct (Qle_bool (-1) v), (Qle_bool v 1); simpl; split;
    try done; intros [? ?]; done.
Qed.

Lemma negative_is_dynamic (v : Q) : (v < 0)%Q → uses_dynamic_threshold v = true.
Proof.
  intros Hlt. unfold uses_dynamic_threshold.
  destruct (Qle_bool 0 v) eqn:H; [|done].
  apply Qle_bool_iff in H. by apply Qlt_not_le in Hlt.
Qed.

(** C10: [filter_threshold] is declared with default -1.0 and range
    [-1.0, 1.0]; a search configuration that does not set it is loaded
    with a negative threshold, which selects the dynamic threshold; every
    value from -1.0 up to, but excluding, 0 is accepted and selects the
    dynamic threshold too. *)
Theorem filter_threshold_default_dynamic (c : DiskANNConfig) :
  entry_default Declared.filter_threshold = Some (-1.0)%Q ∧
  entry_range Declared.filter_threshold = Some ((-1.0)%Q, upto 1.0%Q) ∧
  In SEARCH (entry_usage Declared.filter_threshold) ∧
  (filter_threshold c = None →
     ∃ ft, load_field Qle_bool Declared.filter_threshold (filter_threshold c)
           = (success, Some ft) ∧
           (ft == -1)%Q ∧ uses_dynamic_threshold ft = true) ∧
  (∀ v, filter_threshold c = Some v → (-1 <= v)%Q → (v < 0)%Q →
     load_field Qle_bool Declared.filter_threshold (filter_threshold c)
     = (success, Some v) ∧
     uses_dynamic_threshold v = true).
Proof.
  split_and!; try reflexivity.
  - simpl. auto.
  - intros ->. exists (-1.0)%Q. split_and!; reflexivity.
  - intros v -> Hlo Hhi. split.
    + apply filter_threshold_accepted. split; [done|].
      apply Qlt_le_weak. by apply Qlt_trans with 0%Q.
    + by apply negative_is_dynamic.
Qed.

Lemma filter_threshold_default_dynamic_witness :
  (∃ ft, load_field Qle_bool Declared.filter_threshold
           (filter_threshold (search_request 10 None))
         = (success, Some ft) ∧
         (ft == -1)%Q ∧ uses_dynamic_threshold ft = true) ∧
  (load_field Qle_bool Declared.filter_threshold
     (filter_threshold
        (set_filter_threshold (Some (-0.5)%Q) (search_request 10 None)))
   = (success, Some (-0.5)%Q) ∧
   uses_dynamic_threshold (-0.5)%Q = true).
Proof.
  split.
  - apply (filter_threshold_default_dynamic (search_request 10 None)).
    reflexivity.
  - apply (filter_threshold_default_dynamic
             (set_filter_threshold (Some (-0.5)%Q) (search_request 10 None))).
    + reflexivity.
    + discriminate.
    + reflexivity.
Defined.

(** * The doubling loop of range search *)

Section RangeSearchFacts.

Variable BeamSearch : Z → Q → list (nat * Q).
Variables radius ratio : Q.
Variable maxK : Z.

Local Abbreviation doubling_rounds' := (doubling_rounds BeamSearch).

(** With [k ≥ 1] the loop ends: fuel that outlasts the doublings below
    [maxK] always gives a result. *)
Lemma doubling_rounds_total (fuel : nat) (k : Z) :
  1 ≤ k → maxK < k * 2 ^ Z.of_nat (S fuel) →
  ∃ rounds, doubling_rounds' (S fuel) radius maxK ratio k = Some rounds.
Proof.
  revert k. induction fuel as [|fuel IH]; intros k Hk Hfuel.
  - simpl. destruct (farthest_within _ _); simpl; [|eauto].
    destruct (Z.leb_spec (2 * k) maxK); [lia | eauto].
  - remember (S fuel) as f eqn:Hf. simpl.
    destruct (farthest_within _ _ && _); [|eauto].
    destruct (IH (2 * k)) as [rounds ->]; [lia | | simpl; eauto].
    subst f. rewrite (Nat2Z.inj_succ (S fuel)), Z.pow_succ_r in Hfuel; lia.
Qed.

(** A completed run does not depend on the fuel left over. *)
Lemma doubling_rounds_more_fuel (fuel fuel' : nat) (k : Z) (rounds : list Round) :
  (fuel ≤ fuel')%nat →
  doubling_rounds' fuel radius maxK ratio k = Some rounds →
  doubling_rounds' fuel' radius maxK ratio k = Some rounds.
Proof.
  revert fuel' k rounds.
  induction fuel as [|fuel IH]; intros fuel' k rounds Hle; [done|].
  destruct fuel' as [|fuel']; [lia|]. simpl.
  destruct (farthest_within _ _ && _); [|done].
  destruct (doubling_rounds' fuel radius maxK ratio (2 * k)) as [rest|] eqn:Hrest;
    [|done].
  by rewrite (IH fuel' (2 * k) rest ltac:(lia) Hrest).
Qed.

(** What any completed run of the loop looks like. *)
Lemma doubling_rounds_shape (fuel : nat) (k : Z) (rounds : list Round) :
  1 ≤ k →
  doubling_rounds' fuel radius maxK ratio k = Some rounds →
  (∃ r rest, rounds = r :: rest ∧ round_k r = k) ∧
  (∀ i r, rounds !! i = Some r →
     round_k r = k * 2 ^ Z.of_nat i ∧
     round_searchListSize r = (inject_Z (round_k r) * ratio)%Q ∧
     round_results r = BeamSearch (round_k r) (round_searchListSize r)) ∧
  (k ≤ maxK → within_log2_rounds k maxK (length rounds)) ∧
  (maxK < k → length rounds = 1%nat).
Proof.
  revert k rounds. induction fuel as [|fuel IH]; intros k rounds Hk; [done|].
  simpl.
  set (r0 := {| round_k := k;
                round_searchListSize := (inject_Z k * ratio)%Q;
                round_results := BeamSearch k (inject_Z k * ratio)%Q |}).
  assert (Hone : ∀ i r, [r0] !! i = Some r →
            round_k r = k * 2 ^ Z.of_nat i ∧
            round_searchListSize r = (inject_Z (round_k r) * ratio)%Q ∧
            round_results r = BeamSearch (round_k r) (round_searchListSize r)).
  { intros [|i] r; [|done]. intros [= <-]. simpl. split; [lia | done]. }
  destruct (farthest_within _ _) eqn:Hfar; simpl.
  - destruct (Z.leb_spec (2 * k) maxK) as [Hle|Hgt].
    + destruct (doubling_rounds' fuel radius maxK ratio (2 * k))
        as [rest|] eqn:Hrest; [|done].
      simpl. intros [= <-].
      destruct (IH (2 * k) _ ltac:(lia) Hrest)
        as ((r1 & rest' & -> & Hk1) & Hall & Hbound & _).
      split_and!.
      * by exists r0, (r1 :: rest').
      * intros [|i] r.
        -- intros [= <-]. simpl. split; [lia | done].
        -- intros Hi. change ((r1 :: rest') !! i = Some r) in Hi.
           destruct (Hall i r Hi) as (Hki & Hrest').
           split; [|done]. rewrite Hki, Nat2Z.inj_succ, Z.pow_succ_r; lia.
      * intros _. specialize (Hbound Hle).
        unfold within_log2_rounds in *. simpl length in *.
        replace (Z.of_nat (S (S (length rest'))) - 1)
          with (Z.succ (Z.of_nat (S (length rest')) - 1)) by lia.
        rewrite Z.pow_succ_r by lia. lia.
      * intros Hgt. lia.
    + intros [= <-]. split_and!; [by exists r0, [] | done | | done].
      intros Hle. unfold within_log2_rounds. simpl. lia.
  - intros [= <-]. split_and!; [by exists r0, [] | done | | done].
    intros Hle. unfold within_log2_rounds. simpl. lia.
Qed.

End RangeSearchFacts.

(** The bound over the reals, read on the integers. *)
Lemma within_log2_rounds_log2 (minK maxK : Z) (n : nat) :
  1 ≤ minK → (1 ≤ n)%nat → within_log2_rounds minK maxK n →
  Z.of_nat n ≤ Z.log2 (maxK / minK) + 1.
Proof.
  unfold within_log2_rounds. intros Hmin Hn Hb.
  assert (0 < 2 ^ (Z.of_nat n - 1)) as Hpos by (apply Z.pow_pos_nonneg; lia).
  assert (2 ^ (Z.of_nat n - 1) ≤ maxK / minK) as Hdiv.
  { apply Z.div_le_lower_bound; lia. }
  apply Z.log2_le_pow2 in Hdiv; lia.
Qed.

(** C7: a range search with [1 ≤ min_k ≤ max_k] ends; its first round
    has [k = min_k], round [i] has [k = min_k × 2^i] and calls the engine
    with [searchListSize = k × ratio]; there are at most
    [log2(max_k/min_k) + 1] rounds. *)
Theorem range_search_rounds_within_log2
    (BeamSearch : Z → Q → list (nat * Q)) (radius ratio : Q) (minK maxK : Z)
    (Hmin : 1 ≤ minK) (Hord : minK ≤ maxK) :
  ∃ rounds,
    RangeSearch_rounds BeamSearch radius minK maxK ratio = Some rounds ∧
    (∃ r rest, rounds = r :: rest ∧ round_k r = minK) ∧
    (∀ i r, rounds !! i = Some r →
       round_k r = minK * 2 ^ Z.of_nat i ∧
       round_searchListSize r = (inject_Z (round_k r) * ratio)%Q ∧
       round_results r = BeamSearch (round_k r) (round_searchListSize r)) ∧
    within_log2_rounds minK maxK (length rounds) ∧
    Z.of_nat (length rounds) ≤ Z.log2 (maxK / minK) + 1.
Proof.
  unfold RangeSearch_rounds.
  destruct (doubling_rounds_total BeamSearch radius ratio maxK
              (Z.to_nat (Z.log2 maxK)) minK Hmin) as [rounds Hrun].
  { assert (0 < maxK) as Hpos by lia.
    pose proof (Z.log2_spec maxK Hpos) as [_ Hup].
    pose proof (Z.log2_nonneg maxK).
    rewrite Nat2Z.inj_succ, Z2Nat.id by lia. nia. }
  exists rounds. split; [exact Hrun|].
  destruct (doubling_rounds_shape _ _ _ _ _ _ _ Hmin Hrun)
    as (Hhead & Hall & Hbound & _).
  split_and!; [done | done | by apply Hbound |].
  destruct Hhead as (r & rest & -> & _).
  apply within_log2_rounds_log2; [done | simpl; lia | by apply Hbound].
Qed.

Lemma range_search_rounds_within_log2_witness :
  ∃ rounds,
    RangeSearch_rounds ramp_engine 100000 100 10000 2 = Some rounds ∧
    round_k <$> rounds = [100; 200; 400; 800; 1600; 3200; 6400] ∧
    within_log2_rounds 100 10000 (length rounds) ∧
    Z.of_nat (length rounds) ≤ Z.log2 (10000 / 100) + 1.
Proof.
  destruct (range_search_rounds_within_log2 ramp_engine 100000 2 100 10000
              ltac:(lia) ltac:(lia))
    as (rounds & Hrun & _ & _ & Hbound & Hlog).
  exists rounds. split; [exact Hrun|].
  split; [|split; [exact Hbound | exact Hlog]].
  assert (Some (round_k <$> rounds)
          = Some [100; 200; 400; 800; 1600; 3200; 6400]) as [= ->];
    [|reflexivity].
  change (Some (round_k <$> rounds)) with (fmap (M:=list) round_k <$> Some rounds).
  rewrite <- Hrun. vm_compute. reflexivity.
Defined.

(** * Further properties of the two checks *)

(** The search check throws exactly when [k] holds no value. *)
Theorem search_check_throws_iff (s : Store) :
  CheckAndAdjustForSearch s = Throw_bad_optional_access ↔ k (self s) = None.
Proof.
  split; [|apply search_check_throws_without_k].
  destruct (k (self s)) as [kv|] eqn:Hk; [|done].
  destruct (search_check_returns s kv Hk) as (st & s' & ->). discriminate.
Qed.

(** Case analysis of an acceptance: the object had a sufficient
    [search_list_size] and the store is returned as it was, or it had none
    and got [max(k, 16)]. *)
Lemma search_success_inv (s s' : Store) :
  CheckAndAdjustForSearch s = Ret (success, s') →
  ∃ kv, k (self s) = Some kv ∧
    ((∃ v, search_list_size (self s) = Some v ∧ kv ≤ v ∧ s' = s) ∨
     (search_list_size (self s) = None ∧
      s' = with_self (set_search_list_size (Some (Z.max kv 16)) (self s)) s)).
Proof.
  run_check.
  destruct (search_list_size (self s)) as [v|] eqn:Hs;
    destruct (k (self s)) as [kv|] eqn:Hk; simpl; try discriminate.
  - destruct (Z.gtb_spec kv v); intros [= <-].
    exists kv. split; [done|]. left. exists v. split_and!; [done | lia | done].
  - intros [= <-]. exists kv. split; [done|]. by right.
Qed.

(** After an accepting search check, [search_list_size] holds a value that
    is at least [k]; a value the check supplied itself is also at least
    16. *)
Theorem search_success_postcondition (s s' : Store)
    (Hrun : CheckAndAdjustForSearch s = Ret (success, s')) :
  ∃ kv v,
    k (self s') = Some kv ∧ search_list_size (self s') = Some v ∧ kv ≤ v ∧
    (search_list_size (self s) = None → 16 ≤ v).
Proof.
  apply search_success_inv in Hrun
    as (kv & Hk & [(v & Hs & Hle & ->) | (Hs & ->)]).
  - exists kv, v. split_and!; try done. rewrite Hs. discriminate.
  - exists kv, (Z.max kv 16). simpl. split_and!; [done | done | lia | lia].
Qed.

Lemma search_success_postcondition_witness :
  ∃ kv v,
    k (search_request 40 (Some 75)) = Some kv ∧
    search_list_size (search_request 40 (Some 75)) = Some v ∧ kv ≤ v ∧
    (search_list_size (search_request 40 (Some 75)) = None → 16 ≤ v).
Proof.
  exact (search_success_postcondition
           (at_call (search_request 40 (Some 75)))
           (at_call (search_request 40 (Some 75))) eq_refl).
Defined.

Lemma set_search_list_size_same (c : DiskANNConfig) :
  set_search_list_size (search_list_size c) c = c.
Proof. by destruct c. Qed.

(** Whatever the search check returns, it has touched no member but
    [search_list_size]; a [search_list_size] that was supplied is never
    replaced; and on acceptance the caller's string and the log are as
    they were. *)
Theorem search_check_frame (s s' : Store) (st : Status)
    (Hrun : CheckAndAdjustForSearch s = Ret (st, s')) :
  self s' = set_search_list_size (search_list_size (self s')) (self s) ∧
  (∀ v, search_list_size (self s) = Some v → self s' = self s) ∧
  (st = success → err_msg s' = err_msg s ∧ error_log s' = error_log s).
Proof.
  destruct st.
  - apply search_success_inv in Hrun
      as (kv & Hk & [(v & Hs & Hle & ->) | (Hs & ->)]); simpl.
    + split_and!; [by rewrite set_search_list_size_same | done | done].
    + split_and!; [done | | done]. intros v Hv. congruence.
  - apply search_rejection_inv in Hrun as (sls & kv & Hs & Hk & _ & ->). simpl.
    split_and!; [by rewrite set_search_list_size_same | done | done].
Qed.

Lemma search_check_frame_witness :
  ∃ s', CheckAndAdjustForSearch (at_call (search_request 5 None))
        = Ret (success, s') ∧
        self s' = set_search_list_size (search_list_size (self s'))
                    (search_request 5 None) ∧
        err_msg s' = "" ∧ error_log s' = [].
Proof.
  eexists. split; [reflexivity|].
  destruct (search_check_frame (at_call (search_request 5 None)) _ success
              eq_refl) as (H1 & _ & H3).
  destruct (H3 eq_refl) as [H4 H5].
  split; [exact H1 | split; [exact H4 | exact H5]].
Defined.

(** Running the search check again on the store it returned gives the
    same status, the same object and the same text in [err_msg]; after an
    acceptance the second run changes nothing at all. *)
Theorem search_check_stable (s s' : Store) (st : Status)
    (Hrun : CheckAndAdjustForSearch s = Ret (st, s')) :
  ∃ s'', CheckAndAdjustForSearch s' = Ret (st, s'') ∧
         self s'' = self s' ∧ err_msg s'' = err_msg s' ∧
         (st = success → s'' = s').
Proof.
  destruct st.
  - exists s'. split_and!; try done.
    apply search_success_inv in Hrun
      as (kv & Hk & [(v & Hs & Hle & ->) | (Hs & ->)]).
    + run_check. rewrite Hs, Hk. simpl.
      destruct (Z.gtb_spec kv v); [lia | done].
    + run_check. rewrite Hk. simpl.
      destruct (Z.gtb_spec kv (Z.max kv 16)); [lia | done].
  - apply search_rejection_inv in Hrun as (sls & kv & Hs & Hk & Hlt & ->).
    set (s' := LOG_KNOWHERE_ERROR_ (search_error_text sls kv)
                 (write_err_msg (search_error_text sls kv) s)).
    exists (LOG_KNOWHERE_ERROR_ (search_error_text sls kv)
              (write_err_msg (search_error_text sls kv) s')).
    split_and!; [| done | done | done].
    run_check. rewrite Hs, Hk. simpl.
    destruct (Z.gtb_spec kv sls); [reflexivity | lia].
Qed.

Lemma search_check_stable_witness :
  ∃ s' s'',
    CheckAndAdjustForSearch (at_call (search_request 10 (Some 3)))
    = Ret (out_of_range_in_json, s') ∧
    CheckAndAdjustForSearch s' = Ret (out_of_range_in_json, s'') ∧
    self s'' = self s' ∧ err_msg s'' = err_msg s'.
Proof.
  eexists.
  destruct (search_check_stable (at_call (search_request 10 (Some 3))) _
              out_of_range_in_json eq_refl) as (s'' & H1 & H2 & H3 & _).
  exists s''. split; [reflexivity|]. split; [exact H1|].
  split; [exact H2 | exact H3].
Defined.

(** The build check is idempotent, and after it [search_list_size] holds
    a value. *)
Theorem build_check_idempotent (c : DiskANNConfig) :
  CheckAndAdjustForBuild (snd (CheckAndAdjustForBuild c))
  = CheckAndAdjustForBuild c ∧
  has_value (search_list_size (snd (CheckAndAdjustForBuild c))) = true.
Proof.
  unfold CheckAndAdjustForBuild, has_value.
  destruct (search_list_size c) as [v|] eqn:Hs; simpl.
  - by rewrite Hs.
  - done.
Qed.

(** An object whose [search_list_size] was filled in by the build check
    passes a later search check exactly when [k ≤ 128], keeping 128; with
    a larger [k] the search check rejects it and reports the 128 that the
    caller never supplied. *)
Theorem build_default_then_search (s : Store) (kv : Z)
    (Hs : search_list_size (self s) = None) (Hk : k (self s) = Some kv) :
  (kv ≤ 128 →
     ∃ s', build_then_search s = Ret (success, s') ∧
           search_list_size (self s') = Some 128) ∧
  (128 < kv →
     ∃ s', build_then_search s = Ret (out_of_range_in_json, s') ∧
           search_list_size (self s') = Some 128 ∧
           err_msg s' = "search_list_size(128) should be larger than k(" +:+
                        to_string kv +:+ ")").
Proof.
  unfold build_then_search, CheckAndAdjustForBuild, has_value.
  rewrite Hs. simpl. run_check. rewrite Hk. simpl.
  unfold kDefaultSearchListSizeForBuild.
  split; intros Hcmp; destruct (Z.gtb_spec kv 128); try lia.
  - eexists. split; [reflexivity|]. reflexivity.
  - eexists. split; [reflexivity|]. split; reflexivity.
Qed.

Lemma build_default_then_search_witness :
  (∃ s', build_then_search (at_call (search_request 10 None))
         = Ret (success, s') ∧
         search_list_size (self s') = Some 128) ∧
  (∃ s', build_then_search (at_call (search_request 200 None))
         = Ret (out_of_range_in_json, s') ∧
         search_list_size (self s') = Some 128 ∧
         err_msg s' = "search_list_size(128) should be larger than k(200)").
Proof.
  split.
  - apply (proj1 (build_default_then_search
                    (at_call (search_request 10 None)) 10 eq_refl eq_refl)).
    lia.
  - apply (proj2 (build_default_then_search
                    (at_call (search_request 200 None)) 200 eq_refl eq_refl)).
    lia.
Defined.

(** The order of the two checks decides the default: for [k < 128] both
    orders accept, build-then-search leaves 128 and search-then-build
    leaves [max(k, 16)], which is a different value. *)
Theorem checks_do_not_commute (s : Store) (kv : Z)
    (Hs : search_list_size (self s) = None) (Hk : k (self s) = Some kv)
    (Hlt : kv < 128) :
  ∃ s1 s2,
    build_then_search s = Ret (success, s1) ∧
    search_then_build s = Ret (success, s2) ∧
    search_list_size (self s1) = Some 128 ∧
    search_list_size (self s2) = Some (Z.max kv 16) ∧
    self s1 ≠ self s2.
Proof.
  unfold build_then_search, search_then_build, CheckAndAdjustForBuild, has_value.
  rewrite Hs. simpl. run_check. rewrite Hs, Hk. simpl.
  unfold kDefaultSearchListSizeForBuild, kSearchListSizeMinValue.
  destruct (Z.gtb_spec kv 128); [lia|].
  eexists _, _. split_and!; try reflexivity.
  simpl. intros Heq.
  apply (f_equal search_list_size) in Heq. simpl in Heq.
  injection Heq. lia.
Qed.

Lemma checks_do_not_commute_witness :
  ∃ s1 s2,
    build_then_search (at_call (search_request 10 None)) = Ret (success, s1) ∧
    search_then_build (at_call (search_request 10 None)) = Ret (success, s2) ∧
    search_list_size (self s1) = Some 128 ∧
    search_list_size (self s2) = Some (Z.max 10 16) ∧
    self s1 ≠ self s2.
Proof.
  apply (checks_do_not_commute (at_call (search_request 10 None)) 10);
    [reflexivity | reflexivity | lia].
Defined.

(** Raising [search_list_size] or lowering [k] never turns an accepted
    request into a rejected one. *)
Theorem search_acceptance_monotone (s1 s1' s2 : Store) (kv1 kv2 v1 v2 : Z)
    (Hk1 : k (self s1) = Some kv1) (Hs1 : search_list_size (self s1) = Some v1)
    (Hk2 : k (self s2) = Some kv2) (Hs2 : search_list_size (self s2) = Some v2)
    (Hk : kv2 ≤ kv1) (Hv : v1 ≤ v2)
    (Hrun : CheckAndAdjustForSearch s1 = Ret (success, s1')) :
  CheckAndAdjustForSearch s2 = Ret (success, s2).
Proof.
  apply search_success_inv in Hrun
    as (kv & Hk' & [(v & Hs & Hle & _) | (Hs & _)]); [|congruence].
  assert (kv = kv1) as -> by congruence. assert (v = v1) as -> by congruence.
  run_check. rewrite Hs2, Hk2. simpl.
  destruct (Z.gtb_spec kv2 v2); [lia | done].
Qed.

Lemma search_acceptance_monotone_witness :
  CheckAndAdjustForSearch (at_call (search_request 8 (Some 20)))
  = Ret (success, at_call (search_request 8 (Some 20))).
Proof.
  apply (search_acceptance_monotone
           (at_call (search_request 10 (Some 10)))
           (at_call (search_request 10 (Some 10)))
           (at_call (search_request 8 (Some 20))) 10 8 10 20);
    try reflexivity; lia.
Defined.

(** * The checks against the declaration table *)

(** A [search_list_size] that one of the checks filled in lies in the
    range the table declares for the field, whatever [k] is. *)
Theorem supplied_defaults_in_declared_range (c : DiskANNConfig) (v : Z)
    (Hs : search_list_size c = None) :
  (search_list_size (snd (CheckAndAdjustForBuild c)) = Some v →
     in_declared_range Z.leb Declared.search_list_size v = true) ∧
  (∀ s st s', self s = c → CheckAndAdjustForSearch s = Ret (st, s') →
     search_list_size (self s') = Some v →
     in_declared_range Z.leb Declared.search_list_size v = true).
Proof.
  unfold in_declared_range. simpl. split.
  - unfold CheckAndAdjustForBuild, has_value. rewrite Hs. simpl.
    intros [= <-]. done.
  - intros s st s' <- Hrun Hv. destruct st.
    + apply search_success_inv in Hrun
        as (kv & Hk & [(w & Hw & _) | (_ & ->)]); [congruence|].
      simpl in Hv. injection Hv as <-. lia.
    + apply search_rejection_inv in Hrun as (sls & kv & Hw & _). congruence.
Qed.

Lemma supplied_defaults_in_declared_range_witness :
  in_declared_range Z.leb Declared.search_list_size 128 = true ∧
  in_declared_range Z.leb Declared.search_list_size 16 = true.
Proof.
  split.
  - apply (proj1 (supplied_defaults_in_declared_range
                    (search_request (-7) None) 128 eq_refl)).
    reflexivity.
  - apply (proj2 (supplied_defaults_in_declared_range
                    (search_request (-7) None) 16 eq_refl)
             (at_call (search_request (-7) None)) success
             (at_call (search_request (-7) (Some 16))));
      reflexivity.
Defined.

(** Every field that the table declares with both a default and a range
    has its default inside that range, and the default [min_k] does not
    exceed the default [max_k]. *)
Theorem declared_defaults_in_range :
  default_in_range Z.leb Declared.max_degree = true ∧
  default_in_range Qle_bool Declared.search_cache_budget_gb = true ∧
  default_in_range Z.leb Declared.beamwidth = true ∧
  default_in_range Z.leb Declared.min_k = true ∧
  default_in_range Z.leb Declared.max_k = true ∧
  default_in_range Qle_bool Declared.search_list_and_k_ratio = true ∧
  default_in_range Qle_bool Declared.filter_threshold = true ∧
  (∃ lo hi, entry_default Declared.min_k = Some lo ∧
            entry_default Declared.max_k = Some hi ∧ lo ≤ hi).
Proof.
  split_and!; try reflexivity.
  exists 100, 10000. split_and!; [reflexivity | reflexivity | lia].
Qed.
